(** * The PI/USDT trading bot of [src/main.py]: position state machine,
      cooldown gate, exit rule and market analysis

    The development embeds the Python module shallowly.

    - Numbers.  Every price, balance and indicator of the program is a
      Python [float] (binary64).  The program text is embedded once, over
      an interface [PyNum] of the arithmetic and comparison operations it
      uses, and the interface is instantiated twice: by Rocq's primitive
      binary64 floats (what the interpreter computes) and by the exact
      rationals [Q] (the arithmetic the specification reasons in).
      Control-flow theorems are proved for every instance; theorems that
      need order laws are proved for every instance satisfying
      [PyNumLaws] (both instances do); identities of exact arithmetic are
      proved for [Q] and say so.
    - Effects.  The exchange, the random generator, the wall clock and
      the Telegram channel are external.  A [World] answers the n-th
      external interaction; a computation [M A] threads the module's
      globals and the interaction counter, may raise a Python exception,
      and returns the list of events it produced (exchange calls, orders,
      notifications, log lines, sleeps).  Every exchange call may raise;
      the Telegram channel is taken to deliver each message, so
      [send_telegram_message] and [reply_text] do not raise.
    - Time.  A naive [datetime] is the number of microseconds since an
      arbitrary origin, a [timedelta] an integer number of microseconds.
    - Concurrency.  An operation (one iteration of [trading_loop], one
      command handler) is run to completion.  The coroutines of the
      program can also interleave at their [await] points; one such
      interleaving, at the acknowledgement of [buy_command], is run at the
      end of the file. *)

From Stdlib Require Import ZArith QArith Qabs List String Ascii Bool Lia Lqa.
From Stdlib Require Import Floats Permutation.
Import ListNotations.

Set Warnings "-inexact-float".
Set Implicit Arguments.

Local Open Scope Z_scope.

(** ** Python exceptions and results *)

Inductive Exn : Type :=
| ZeroDivisionError
| TypeError
| ValueError
| ExchangeError.

Inductive Result (A : Type) : Type :=
| Ok (a : A)
| Raise (e : Exn).

Arguments Ok {A} a.
Arguments Raise {A} e.

(** ** The arithmetic the program uses *)

Class PyNum (F : Type) : Type := {
  of_Z : Z -> F;                      (* an [int] used as a number *)
  lit : Q -> F;                       (* a decimal literal such as [0.03] *)
  nadd : F -> F -> F;
  nsub : F -> F -> F;
  nmul : F -> F -> F;
  ndiv : F -> F -> F;                 (* [/] once the divisor is known non-zero *)
  nneg : F -> F;
  nabs : F -> F;
  neqb : F -> F -> bool;
  nltb : F -> F -> bool;
  nleb : F -> F -> bool;
  float_of_string : string -> option F  (* [float(s)]; [None] is ValueError *)
}.

Declare Scope num_scope.
Delimit Scope num_scope with num.
Notation "a + b" := (nadd a b) : num_scope.
Notation "a - b" := (nsub a b) : num_scope.
Notation "a * b" := (nmul a b) : num_scope.
Notation "a / b" := (ndiv a b) : num_scope.
Notation "- a" := (nneg a) : num_scope.
Notation "a =? b" := (neqb a b) : num_scope.
Notation "a <? b" := (nltb a b) : num_scope.
Notation "a <=? b" := (nleb a b) : num_scope.

(** Order laws shared by the instances (IEEE comparisons satisfy them:
    a comparison with NaN is false). *)
Class PyNumLaws (F : Type) {N : PyNum F} : Prop := {
  nltb_irrefl : forall a : F, (a <? a)%num = false;
  nltb_trans : forall a b c : F,
      (a <? b)%num = true -> (b <? c)%num = true -> (a <? c)%num = true;
  nltb_nleb_trans : forall a b c : F,
      (a <? b)%num = true -> (b <=? c)%num = true -> (a <? c)%num = true;
  nleb_nltb_trans : forall a b c : F,
      (a <=? b)%num = true -> (b <? c)%num = true -> (a <? c)%num = true;
  nneg_neg : forall a : F,
      (of_Z 0 <? a)%num = true -> (- a <? of_Z 0)%num = true;
  of_Z_30_70 : (of_Z 30 <? of_Z 70)%num = true
}.

Arguments PyNumLaws F {N}.

(** *** Decimal strings

    [float(s)] on the plain decimal forms a chat argument usually has: an
    optional sign, digits, and an optional point followed by digits.  The
    other spellings Python accepts (exponents, [inf], [nan], underscores)
    are not read by this parser. *)

Definition digit_of (c : ascii) : option Z :=
  let n := nat_of_ascii c in
  if (48 <=? n)%nat && (n <=? 57)%nat then Some (Z.of_nat (n - 48)) else None.

Fixpoint digits (s : string) (acc : Z) (n : nat) : Z * nat * string :=
  match s with
  | String c s' =>
      match digit_of c with
      | Some d => digits s' (10 * acc + d) (S n)
      | None => (acc, n, s)
      end
  | EmptyString => (acc, n, s)
  end.

Definition unsigned_decimal (s : string) : option Q :=
  let '(i, ni, rest) := digits s 0 0 in
  match rest with
  | EmptyString => if (ni =? 0)%nat then None else Some (inject_Z i)
  | String "."%char rest' =>
      let '(f, nf, rest'') := digits rest' 0 0 in
      match rest'' with
      | EmptyString =>
          if (ni + nf =? 0)%nat then None
          else Some (Qmake (i * 10 ^ Z.of_nat nf + f) (Z.to_pos (10 ^ Z.of_nat nf)))
      | String _ _ => None
      end
  | String _ _ => None
  end.

Definition decimal_of_string (s : string) : option Q :=
  match s with
  | String "-"%char s' => option_map Qopp (unsigned_decimal s')
  | String "+"%char s' => unsigned_decimal s'
  | _ => unsigned_decimal s
  end.

(** *** Exact rationals *)

#[export] Instance PyNum_Q : PyNum Q := {
  of_Z := inject_Z;
  lit := fun q => q;
  nadd := Qplus;
  nsub := Qminus;
  nmul := Qmult;
  ndiv := Qdiv;
  nneg := Qopp;
  nabs := Qabs;
  neqb := Qeq_bool;
  nltb := fun a b => negb (Qle_bool b a);
  nleb := Qle_bool;
  float_of_string := decimal_of_string
}.

(** *** binary64

    [float_of_Z] rounds an integer to the nearest double, [float_lit]
    divides two such integers: for the literals of the program and for
    short decimal arguments (numerator and denominator below 2^53) this
    is the correctly rounded value, the one the Python parser produces. *)

Definition float_of_Z (z : Z) : float :=
  SF2Prim (binary_normalize prec emax z 0 false).

Definition float_lit (q : Q) : float :=
  PrimFloat.div (float_of_Z (Qnum q)) (float_of_Z (Zpos (Qden q))).

#[export] Instance PyNum_float : PyNum float := {
  of_Z := float_of_Z;
  lit := float_lit;
  nadd := PrimFloat.add;
  nsub := PrimFloat.sub;
  nmul := PrimFloat.mul;
  ndiv := PrimFloat.div;
  nneg := PrimFloat.opp;
  nabs := PrimFloat.abs;
  neqb := PrimFloat.eqb;
  nltb := PrimFloat.ltb;
  nleb := PrimFloat.leb;
  float_of_string := fun s => option_map float_lit (decimal_of_string s)
}.

(** ** Data of the program *)

Section Model.

Context {F : Type} {N : PyNum F}.

Local Open Scope num_scope.

(** [x / y] in Python: ZeroDivisionError on a zero divisor. *)
Definition py_div (a b : F) : Result F :=
  if b =? of_Z 0 then Raise ZeroDivisionError else Ok (a / b).

(** [sum(l)]: the built-in starts from the int [0] and adds left to right. *)
Definition py_sum (l : list F) : F := fold_left nadd l (of_Z 0).

(** [l[-n:]] *)
Definition last_n (A : Type) (n : nat) (l : list A) : list A :=
  skipn (List.length l - n)%nat l.

(** What [exchange.fetch_ticker] returns, and the dict [get_market_data]
    builds from it. *)
Record Ticker : Type := {
  tk_last : F;
  tk_quoteVolume : F;
  tk_percentage : F;
  tk_high : F;
  tk_low : F
}.

Record MarketData : Type := {
  price : F;
  volume : F;
  change_24h : F;
  high : F;
  low : F
}.

(** [exchange.fetch_balance()], the two entries the program reads. *)
Record Balance : Type := {
  usdt_free : F;                      (* balance['USDT']['free'] *)
  pi_free : F                         (* balance['PI']['free'] *)
}.

(** One OHLCV bar [[timestamp, open, high, low, close, volume]]. *)
Record Candle : Type := {
  c_timestamp : Z;
  c_open : F;
  c_high : F;
  c_low : F;
  c_close : F;                        (* candle[4] *)
  c_volume : F
}.

(** The module's globals: the position, the cooldown clock and the
    parameters [set_params_command] rewrites. *)
Record Globals : Type := {
  in_position : bool;
  entry_price : F;
  last_trade_time : option Z;
  BASE_ORDER_SIZE : F;
  PROFIT_THRESHOLD : F;
  STOP_LOSS : F
}.

Definition initial_globals : Globals := {|
  in_position := false;
  entry_price := of_Z 0;
  last_trade_time := None;
  BASE_ORDER_SIZE := lit 0.85%Q;
  PROFIT_THRESHOLD := lit 0.03%Q;
  STOP_LOSS := lit 0.05%Q
|}.

Definition VOLATILITY_THRESHOLD : F := lit 0.02%Q.
Definition CHECK_INTERVAL : Z := 60.
Definition TRADE_COOLDOWN : Z := 300.

(** ** Messages, log lines and events *)

(** The message lists a sell notification draws its first line from. *)
Inductive Templates : Type :=
| JARVIS_SELL_MESSAGES
| JARVIS_STOP_LOSS_MESSAGES.

(** Notification texts, by the statement that builds them, with the
    numbers they interpolate. *)
Inductive Message : Type :=
| MsgMarketDataError                  (* "...problem accessing market data" *)
| MsgBalanceError                     (* "Unable to access wallet funds" *)
| MsgAnalysisError (e : Exn)          (* "analysis circuits encountered an error" *)
| MsgBalanceTooLow                    (* "balance is too low for meaningful trade" *)
| MsgBought (template : nat) (amount current_price order_size_usdt target stop : F)
| MsgBuyFailed (e : Exn)              (* "the buy order failed to execute" *)
| MsgTooSmallToSell                   (* "PI position too small to sell" *)
| MsgSold (templates : Templates) (template : nat)
          (pi_amount current_price entry profit_loss profit_percent : F)
          (celebrate : bool)
| MsgSellFailed (e : Exn)             (* "the sell order failed to execute" *)
| MsgGreeting (template : nat)
| MsgAnalysis (template : nat)
| MsgUnexpectedError (e : Exn)        (* "...unexpected error... rebooting" *)
| MsgStarted
| MsgStatus (price change balance : F) (position : option (F * F * F * F))
| MsgAlreadyInPosition                (* "Already in position, sir." *)
| MsgManualBuy                        (* "Manual override accepted." *)
| MsgNoPosition                       (* "No position to sell, sir." *)
| MsgManualSell                       (* "Manual sell protocol initiated." *)
| MsgIncorrectParameters              (* "Incorrect parameters. Format: ..." *)
| MsgParametersUpdated (order_size profit stop_loss : F)
| MsgParametersError (e : Exn).       (* "Error updating parameters" *)

Inductive LogLine : Type :=
| LogError (e : Exn)
| LogAnalysis (risk_score : Z) (rsi volatility : F)
| LogBuy
| LogSell
| LogProfitTarget (profit_percentage : F)
| LogStopLoss (profit_percentage : F).

Inductive Event : Type :=
| FetchTicker
| FetchBalance
| FetchOHLCV
| MarketBuy (amount : F) (filled : bool)    (* create_market_buy_order *)
| MarketSell (amount : F) (filled : bool)   (* create_market_sell_order *)
| Telegram (m : Message)                    (* send_telegram_message *)
| Reply (m : Message)                       (* update.message.reply_text *)
| RandomRandom                              (* random.random() *)
| RandomChoice                              (* random.choice(...) *)
| Now                                       (* datetime.now() *)
| Sleep (seconds : Z)                       (* asyncio.sleep *)
| Log (l : LogLine).

(** ** The outside world

    The answer to the n-th external interaction.  An exchange call that
    raises answers [None] (or [false] for an order); the call made picks
    the field it reads. *)
Record Answer : Type := {
  a_ticker : option Ticker;
  a_balance : option Balance;
  a_ohlcv : option (list Candle);
  a_order : bool;
  a_random : F;                       (* in [0, 1) *)
  a_choice : nat;
  a_now : Z                           (* microseconds *)
}.

Definition World : Type := nat -> Answer.

(** ** Computations *)

Record Out (A : Type) : Type := {
  res : Result A;
  st : Globals;
  clk : nat;
  evs : list Event
}.

Definition M (A : Type) : Type := World -> nat -> Globals -> Out A.

Definition ret {A} (a : A) : M A :=
  fun _ n g => {| res := Ok a; st := g; clk := n; evs := [] |}.

Definition raise {A} (e : Exn) : M A :=
  fun _ n g => {| res := Raise e; st := g; clk := n; evs := [] |}.

Definition bind {A B} (m : M A) (k : A -> M B) : M B :=
  fun w n g =>
    match m w n g with
    | {| res := Ok a; st := g1; clk := n1; evs := e1 |} =>
        match k a w n1 g1 with
        | {| res := r; st := g2; clk := n2; evs := e2 |} =>
            {| res := r; st := g2; clk := n2; evs := e1 ++ e2 |}
        end
    | {| res := Raise e; st := g1; clk := n1; evs := e1 |} =>
        {| res := Raise e; st := g1; clk := n1; evs := e1 |}
    end.

(** [try: m  except Exception as e: h e] *)
Definition try_except {A} (m : M A) (h : Exn -> M A) : M A :=
  fun w n g =>
    match m w n g with
    | {| res := Ok a; st := g1; clk := n1; evs := e1 |} =>
        {| res := Ok a; st := g1; clk := n1; evs := e1 |}
    | {| res := Raise e; st := g1; clk := n1; evs := e1 |} =>
        match h e w n1 g1 with
        | {| res := r; st := g2; clk := n2; evs := e2 |} =>
            {| res := r; st := g2; clk := n2; evs := e1 ++ e2 |}
        end
    end.

Definition lift {A} (r : Result A) : M A :=
  match r with
  | Ok a => ret a
  | Raise e => raise e
  end.

Definition emit (e : Event) : M unit :=
  fun _ n g => {| res := Ok tt; st := g; clk := n; evs := [e] |}.

(** One external interaction: the event is recorded, the world's answer
    at the counter is read, the counter advances. *)
Definition ask {A} (e : Event) (field : Answer -> A) : M A :=
  fun w n g => {| res := Ok (field (w n)); st := g; clk := S n; evs := [e] |}.

Definition get_globals : M Globals :=
  fun _ n g => {| res := Ok g; st := g; clk := n; evs := [] |}.

Definition modify (f : Globals -> Globals) : M unit :=
  fun _ n g => {| res := Ok tt; st := f g; clk := n; evs := [] |}.

End Model.

Arguments Ticker F : clear implicits.
Arguments MarketData F : clear implicits.
Arguments Balance F : clear implicits.
Arguments Candle F : clear implicits.
Arguments Globals F : clear implicits.
Arguments Message F : clear implicits.
Arguments LogLine F : clear implicits.
Arguments Event F : clear implicits.
Arguments Answer F : clear implicits.
Arguments World F : clear implicits.
Arguments Out F A : clear implicits.
Arguments M F A : clear implicits.

Declare Scope py_scope.
Delimit Scope py_scope with py.
Notation "x <- m ;; k" := (bind m (fun x => k))
  (at level 61, m at next level, right associativity) : py_scope.
Notation "m ;; k" := (bind m (fun _ => k))
  (at level 61, right associativity) : py_scope.

Definition rbind {A B} (r : Result A) (k : A -> Result B) : Result B :=
  match r with
  | Ok a => k a
  | Raise e => Raise e
  end.

Notation "x <-- r ;; k" := (rbind r (fun x => k))
  (at level 61, r at next level, right associativity) : py_scope.

(** ** The program *)

Section Program.

Context {F : Type} {N : PyNum F}.

Local Open Scope num_scope.
Local Open Scope py_scope.

(** *** External collaborators *)

Definition send_telegram_message (m : Message F) : M F unit := emit (Telegram m).
Definition reply_text (m : Message F) : M F unit := emit (Reply m).
Definition logger (l : LogLine F) : M F unit := emit (Log l).
Definition asyncio_sleep (seconds : Z) : M F unit := emit (Sleep seconds).
Definition datetime_now : M F Z := ask Now (@a_now F).
Definition random_random : M F F := ask RandomRandom (@a_random F).
Definition random_choice : M F nat := ask RandomChoice (@a_choice F).

Definition fetch_ticker : M F (Ticker F) :=
  t <- ask FetchTicker (@a_ticker F) ;;
  match t with
  | Some t => ret t
  | None => raise ExchangeError
  end.

Definition fetch_balance : M F (Balance F) :=
  b <- ask FetchBalance (@a_balance F) ;;
  match b with
  | Some b => ret b
  | None => raise ExchangeError
  end.

Definition fetch_ohlcv : M F (list (Candle F)) :=
  c <- ask FetchOHLCV (@a_ohlcv F) ;;
  match c with
  | Some c => ret c
  | None => raise ExchangeError
  end.

Definition create_market_buy_order (amount : F) : M F unit :=
  fun w n g =>
    {| res := if a_order (w n) then Ok tt else Raise ExchangeError;
       st := g; clk := S n; evs := [MarketBuy amount (a_order (w n))] |}.

Definition create_market_sell_order (amount : F) : M F unit :=
  fun w n g =>
    {| res := if a_order (w n) then Ok tt else Raise ExchangeError;
       st := g; clk := S n; evs := [MarketSell amount (a_order (w n))] |}.

(** *** Assignments to the globals *)

Definition set_in_position (b : bool) (g : Globals F) : Globals F :=
  {| in_position := b; entry_price := entry_price g;
     last_trade_time := last_trade_time g;
     BASE_ORDER_SIZE := BASE_ORDER_SIZE g;
     PROFIT_THRESHOLD := PROFIT_THRESHOLD g; STOP_LOSS := STOP_LOSS g |}.

Definition set_entry_price (p : F) (g : Globals F) : Globals F :=
  {| in_position := in_position g; entry_price := p;
     last_trade_time := last_trade_time g;
     BASE_ORDER_SIZE := BASE_ORDER_SIZE g;
     PROFIT_THRESHOLD := PROFIT_THRESHOLD g; STOP_LOSS := STOP_LOSS g |}.

Definition set_last_trade_time (t : Z) (g : Globals F) : Globals F :=
  {| in_position := in_position g; entry_price := entry_price g;
     last_trade_time := Some t;
     BASE_ORDER_SIZE := BASE_ORDER_SIZE g;
     PROFIT_THRESHOLD := PROFIT_THRESHOLD g; STOP_LOSS := STOP_LOSS g |}.

Definition set_BASE_ORDER_SIZE (v : F) (g : Globals F) : Globals F :=
  {| in_position := in_position g; entry_price := entry_price g;
     last_trade_time := last_trade_time g;
     BASE_ORDER_SIZE := v;
     PROFIT_THRESHOLD := PROFIT_THRESHOLD g; STOP_LOSS := STOP_LOSS g |}.

Definition set_PROFIT_THRESHOLD (v : F) (g : Globals F) : Globals F :=
  {| in_position := in_position g; entry_price := entry_price g;
     last_trade_time := last_trade_time g;
     BASE_ORDER_SIZE := BASE_ORDER_SIZE g;
     PROFIT_THRESHOLD := v; STOP_LOSS := STOP_LOSS g |}.

Definition set_STOP_LOSS (v : F) (g : Globals F) : Globals F :=
  {| in_position := in_position g; entry_price := entry_price g;
     last_trade_time := last_trade_time g;
     BASE_ORDER_SIZE := BASE_ORDER_SIZE g;
     PROFIT_THRESHOLD := PROFIT_THRESHOLD g; STOP_LOSS := v |}.

(** *** get_market_data, get_available_balance *)

Definition get_market_data : M F (option (MarketData F)) :=
  try_except
    (ticker <- fetch_ticker ;;
     ret (Some {| price := tk_last ticker;
                  volume := tk_quoteVolume ticker;
                  change_24h := tk_percentage ticker;
                  high := tk_high ticker;
                  low := tk_low ticker |}))
    (fun e =>
       logger (LogError e) ;;
       send_telegram_message MsgMarketDataError ;;
       ret None).

Definition get_available_balance : M F F :=
  try_except
    (balance <- fetch_balance ;;
     ret (usdt_free balance))
    (fun e =>
       logger (LogError e) ;;
       send_telegram_message MsgBalanceError ;;
       ret (of_Z 0)).

(** *** analyze_market *)

(** [[closes[i] / closes[i - 1] - 1 for i in range(1, len(closes))]] *)
Fixpoint returns_from (prev : F) (rest : list F) : Result (list F) :=
  match rest with
  | [] => Ok []
  | c :: rest' =>
      q <-- py_div c prev ;;
      rs <-- returns_from c rest' ;;
      Ok (q - of_Z 1 :: rs)
  end.

Definition returns_of (closes : list F) : Result (list F) :=
  match closes with
  | [] => Ok []
  | c0 :: rest => returns_from c0 rest
  end.

Definition gains_of (returns : list F) : F :=
  py_sum (filter (fun r => of_Z 0 <? r) returns).

Definition losses_of (returns : list F) : F :=
  py_sum (map nabs (filter (fun r => r <? of_Z 0) returns)).

Definition rsi_of (gains losses : F) : Result F :=
  if losses =? of_Z 0 then Ok (of_Z 100)
  else
    rs <-- py_div gains losses ;;
    d <-- py_div (of_Z 100) (of_Z 1 + rs) ;;
    Ok (of_Z 100 - d).

Record Indicators : Type := {
  volatility : F;
  rsi : F;
  sma_short : F;
  sma_long : F
}.

Definition indicators (closes : list F) : Result Indicators :=
  returns <-- returns_of closes ;;
  volatility <-- py_div (py_sum (map nabs returns))
                        (of_Z (Z.of_nat (List.length returns))) ;;
  rsi <-- rsi_of (gains_of returns) (losses_of returns) ;;
  let sma_short := py_sum (last_n 5 closes) / of_Z 5 in
  let sma_long := py_sum (last_n 15 closes) / of_Z 15 in
  Ok {| volatility := volatility; rsi := rsi;
        sma_short := sma_short; sma_long := sma_long |}.

(** The score before the random factor, accumulated in the order of the
    source. *)
Definition risk_score_before_random (i : Indicators) (change_24h : F) : Z :=
  let risk_score := 0%Z in
  let risk_score :=
    if sma_long i <? sma_short i then (risk_score + 3)%Z else risk_score in
  let risk_score :=
    if VOLATILITY_THRESHOLD <? volatility i then (risk_score + 2)%Z
    else risk_score in
  let risk_score :=
    if rsi i <? of_Z 30 then (risk_score + 3)%Z
    else if of_Z 70 <? rsi i then (risk_score - 3)%Z
    else risk_score in
  let risk_score :=
    if change_24h <? of_Z (-5) then (risk_score + 2)%Z else risk_score in
  risk_score.

Definition analyze_market : M F (bool * F) :=
  market_data <- get_market_data ;;
  match market_data with
  | None => ret (false, of_Z 0)
  | Some market_data =>
      try_except
        (candles <- fetch_ohlcv ;;
         let closes := map (@c_close F) candles in
         i <- lift (indicators closes) ;;
         let risk_score := risk_score_before_random i (change_24h market_data) in
         draw <- random_random ;;
         let risk_score :=
           if draw <? lit 0.2%Q then (risk_score + 4)%Z else risk_score in
         logger (LogAnalysis risk_score (rsi i) (volatility i)) ;;
         let buy_signal := (4 <=? risk_score)%Z in
         ret (buy_signal, price market_data))
        (fun e =>
           logger (LogError e) ;;
           send_telegram_message (MsgAnalysisError e) ;;
           ret (false, of_Z 0))
  end.

(** *** buy_pi, sell_pi *)

Definition buy_pi (current_price : F) : M F bool :=
  try_except
    (usdt_balance <- get_available_balance ;;
     g <- get_globals ;;
     let order_size_usdt := usdt_balance * BASE_ORDER_SIZE g in
     if order_size_usdt <? of_Z 10 then
       send_telegram_message MsgBalanceTooLow ;;
       ret false
     else
       amount <- lift (py_div order_size_usdt current_price) ;;
       create_market_buy_order amount ;;
       modify (set_in_position true) ;;
       modify (set_entry_price current_price) ;;
       now <- datetime_now ;;
       modify (set_last_trade_time now) ;;
       g <- get_globals ;;
       template <- random_choice ;;
       send_telegram_message
         (MsgBought template amount current_price order_size_usdt
            (current_price * (of_Z 1 + PROFIT_THRESHOLD g))
            (current_price * (of_Z 1 - STOP_LOSS g))) ;;
       logger LogBuy ;;
       ret true)
    (fun e =>
       logger (LogError e) ;;
       send_telegram_message (MsgBuyFailed e) ;;
       ret false).

Definition sell_pi (current_price : F) (reason : string) : M F bool :=
  try_except
    (balance <- fetch_balance ;;
     let pi_amount := pi_free balance in
     if pi_amount * current_price <? of_Z 10 then
       send_telegram_message MsgTooSmallToSell ;;
       ret false
     else
       create_market_sell_order pi_amount ;;
       g <- get_globals ;;
       let entry_value := pi_amount * entry_price g in
       let exit_value := pi_amount * current_price in
       let profit_loss := exit_value - entry_value in
       q <- lift (py_div profit_loss entry_value) ;;
       let profit_percent := q * of_Z 100 in
       modify (set_in_position false) ;;
       now <- datetime_now ;;
       modify (set_last_trade_time now) ;;
       let message_templates :=
         if String.eqb reason "profit" then JARVIS_SELL_MESSAGES
         else JARVIS_STOP_LOSS_MESSAGES in
       template <- random_choice ;;
       send_telegram_message
         (MsgSold message_templates template pi_amount current_price
            (entry_price g) profit_loss profit_percent
            (of_Z 0 <? profit_loss)) ;;
       logger LogSell ;;
       ret true)
    (fun e =>
       logger (LogError e) ;;
       send_telegram_message (MsgSellFailed e) ;;
       ret false).

(** *** check_exit_conditions *)

Definition check_exit_conditions (current_price : F) : M F unit :=
  g <- get_globals ;;
  if negb (in_position g) then ret tt
  else
    profit_percentage <-
      lift (py_div (current_price - entry_price g) (entry_price g)) ;;
    if PROFIT_THRESHOLD g <=? profit_percentage then
      logger (LogProfitTarget profit_percentage) ;;
      sell_pi current_price "profit" ;;
      ret tt
    else if profit_percentage <=? - STOP_LOSS g then
      logger (LogStopLoss profit_percentage) ;;
      sell_pi current_price "stop_loss" ;;
      ret tt
    else ret tt.

(** *** trading_loop *)

(** [timedelta.seconds] of a difference of [d] microseconds: the
    normalised timedelta has [0 <= seconds < 86400], the days are a
    separate component. *)
Definition timedelta_seconds (d : Z) : Z :=
  ((d mod 86400000000) / 1000000)%Z.

(** [last_trade_time and (datetime.now() - last_trade_time).seconds <
    TRADE_COOLDOWN]: the clock is read only when a trade was recorded. *)
Definition cooldown_running (last : option Z) : M F bool :=
  match last with
  | None => ret false
  | Some t =>
      now <- datetime_now ;;
      ret (timedelta_seconds (now - t) <? TRADE_COOLDOWN)%Z
  end.

(** The statement before [while True]. *)
Definition trading_loop_startup : M F unit :=
  template <- random_choice ;;
  send_telegram_message (MsgGreeting template).

(** One iteration of [while True]. *)
Definition trading_loop_iteration : M F unit :=
  try_except
    (current_data <- get_market_data ;;
     match current_data with
     | None => asyncio_sleep CHECK_INTERVAL
     | Some current_data =>
         let current_price := price current_data in
         g <- get_globals ;;
         if in_position g then
           check_exit_conditions current_price ;;
           asyncio_sleep CHECK_INTERVAL
         else
           cooling <- cooldown_running (last_trade_time g) ;;
           if cooling : bool then asyncio_sleep CHECK_INTERVAL
           else
             r <- random_random ;;
             (if r <? lit 0.3%Q then
                template <- random_choice ;;
                send_telegram_message (MsgAnalysis template)
              else ret tt) ;;
             signal <- analyze_market ;;
             (if fst signal : bool then
                buy_pi current_price ;; ret tt
              else ret tt) ;;
             asyncio_sleep CHECK_INTERVAL
     end)
    (fun e =>
       logger (LogError e) ;;
       send_telegram_message (MsgUnexpectedError e) ;;
       asyncio_sleep (CHECK_INTERVAL * 2)%Z).

(** [trading_loop] does not return; its start-up message followed by its
    first [k] iterations. *)
Fixpoint iterations (k : nat) : M F unit :=
  match k with
  | O => ret tt
  | S k' => trading_loop_iteration ;; iterations k'
  end.

Definition trading_loop (k : nat) : M F unit :=
  trading_loop_startup ;; iterations k.

(** *** Command handlers *)

Definition start_command : M F unit := reply_text MsgStarted.

Definition status_command : M F unit :=
  market_data <- get_market_data ;;
  balance <- get_available_balance ;;
  datetime_now ;;
  match market_data with
  | None => raise TypeError
  | Some market_data =>
      g <- get_globals ;;
      position <-
        (if in_position g then
           q <- lift (py_div (price market_data - entry_price g) (entry_price g)) ;;
           ret (Some (entry_price g, q * of_Z 100,
                      entry_price g * (of_Z 1 + PROFIT_THRESHOLD g),
                      entry_price g * (of_Z 1 - STOP_LOSS g)))
         else ret None) ;;
      reply_text
        (MsgStatus (price market_data) (change_24h market_data) balance position)
  end.

Definition buy_command : M F unit :=
  g <- get_globals ;;
  if in_position g then reply_text MsgAlreadyInPosition
  else
    market_data <- get_market_data ;;
    reply_text MsgManualBuy ;;
    match market_data with
    | None => raise TypeError
    | Some market_data => buy_pi (price market_data) ;; ret tt
    end.

(** [buy_command] is suspended at [await update.message.reply_text(...)]
    while the acknowledgement is delivered, and other coroutines run.  The
    two halves of the handler around that point: the first returns [None]
    when the handler ended with the refusal, and otherwise what
    [get_market_data] returned. *)
Definition buy_command_until_ack : M F (option (option (MarketData F))) :=
  g <- get_globals ;;
  if in_position g then
    reply_text MsgAlreadyInPosition ;;
    ret None
  else
    market_data <- get_market_data ;;
    reply_text MsgManualBuy ;;
    ret (Some market_data).

Definition buy_command_after_ack (market_data : option (MarketData F))
  : M F unit :=
  match market_data with
  | None => raise TypeError
  | Some market_data => buy_pi (price market_data) ;; ret tt
  end.

Definition sell_command : M F unit :=
  g <- get_globals ;;
  if negb (in_position g) then reply_text MsgNoPosition
  else
    market_data <- get_market_data ;;
    reply_text MsgManualSell ;;
    match market_data with
    | None => raise TypeError
    | Some market_data => sell_pi (price market_data) "manual" ;; ret tt
    end.

(** [float(s)] *)
Definition py_float (s : string) : M F F :=
  match float_of_string s with
  | Some v => ret v
  | None => raise ValueError
  end.

Definition set_params_command (args : list string) : M F unit :=
  try_except
    (match args with
     | [a0; a1; a2] =>
         v0 <- py_float a0 ;;
         modify (set_BASE_ORDER_SIZE v0) ;;
         v1 <- py_float a1 ;;
         modify (set_PROFIT_THRESHOLD v1) ;;
         v2 <- py_float a2 ;;
         modify (set_STOP_LOSS v2) ;;
         g <- get_globals ;;
         reply_text
           (MsgParametersUpdated (BASE_ORDER_SIZE g * of_Z 100)
              (PROFIT_THRESHOLD g * of_Z 100) (STOP_LOSS g * of_Z 100))
     | _ => reply_text MsgIncorrectParameters
     end)
    (fun e => reply_text (MsgParametersError e)).

(** ** Operations on the shared state *)

Inductive Op : Type :=
| Iteration                           (* one iteration of trading_loop *)
| CmdStart
| CmdStatus
| CmdBuy
| CmdSell
| CmdSetParams (args : list string).

Definition exec (op : Op) : M F unit :=
  match op with
  | Iteration => trading_loop_iteration
  | CmdStart => start_command
  | CmdStatus => status_command
  | CmdBuy => buy_command
  | CmdSell => sell_command
  | CmdSetParams args => set_params_command args
  end.

(** The states the program reaches from its initial globals, whatever the
    world answers and whichever operations run. *)
Inductive reachable (w : World F) : nat -> Globals F -> Prop :=
| reachable_initial : forall n, reachable w n initial_globals
| reachable_exec : forall n g op,
    reachable w n g ->
    reachable w (clk (exec op w n g)) (st (exec op w n g)).

(** A run of operations; an exception escaping a handler is the
    dispatcher's to log and leaves the globals as they are. *)
Fixpoint run (ops : list Op) : M F unit :=
  match ops with
  | [] => ret tt
  | op :: ops' =>
      try_except (exec op) (fun _ => ret tt) ;;
      run ops'
  end.

(** *** Observations on event lists *)

Definition is_buy_order (e : Event F) : bool :=
  match e with
  | MarketBuy _ _ => true
  | _ => false
  end.

Definition is_sell_order (e : Event F) : bool :=
  match e with
  | MarketSell _ _ => true
  | _ => false
  end.

Definition is_order (e : Event F) : bool := is_buy_order e || is_sell_order e.

Definition is_failed_order (e : Event F) : bool :=
  match e with
  | MarketBuy _ false | MarketSell _ false => true
  | _ => false
  end.

Definition is_random_random (e : Event F) : bool :=
  match e with
  | RandomRandom => true
  | _ => false
  end.

Definition is_notification (e : Event F) : bool :=
  match e with
  | Telegram _ | Reply _ => true
  | _ => false
  end.

Definition count (p : Event F -> bool) (l : list (Event F)) : nat :=
  List.length (filter p l).

End Program.

Arguments Indicators F : clear implicits.
Arguments indicators {F N} closes : simpl never.

(** ** Observations and statements of the specification *)

Section Observations.

Context {F : Type} {N : PyNum F}.

Local Open Scope num_scope.



(** The wall clock never runs backwards from interaction [n] on, and does
    not read earlier than [t]. *)
Definition clock_monotone_from (w : World F) (n : nat) (t : Z) : Prop :=
  (forall i, (n <= i)%nat -> t <= a_now (w i)) /\
  (forall i j, (n <= i)%nat -> (i <= j)%nat -> a_now (w i) <= a_now (w j)).

(** The five deterministic terms of the risk score, as the specification
    lists them. *)
Definition spec_score_terms (i : Indicators F) (change_24h : F) : list Z :=
  [ if sma_long i <? sma_short i then 3 else 0;
    if VOLATILITY_THRESHOLD <? volatility i then 2 else 0;
    if rsi i <? of_Z 30 then 3 else 0;
    if of_Z 70 <? rsi i then -3 else 0;
    if change_24h <? of_Z (-5) then 2 else 0 ].

(** [setParams] as the specification words it: all three arguments must
    parse to positive numbers, otherwise nothing changes. *)
Definition spec_set_params (args : list string) (g : Globals F)
  : Globals F * bool :=
  match args with
  | [a0; a1; a2] =>
      match float_of_string a0, float_of_string a1, float_of_string a2 with
      | Some v0, Some v1, Some v2 =>
          if (of_Z 0 <? v0) && (of_Z 0 <? v1) && (of_Z 0 <? v2) then
            (set_STOP_LOSS v2 (set_PROFIT_THRESHOLD v1 (set_BASE_ORDER_SIZE v0 g)),
             true)
          else (g, false)
      | _, _, _ => (g, false)
      end
  | _ => (g, false)
  end.

(** A world given by its first answers and the answer it repeats after
    them. *)
Definition world_of (l : list (Answer F)) (d : Answer F) : World F :=
  fun n => nth n l d.

Definition ticker_at (p : F) : Ticker F :=
  {| tk_last := p; tk_quoteVolume := of_Z 0; tk_percentage := of_Z 0;
     tk_high := p; tk_low := p |}.

Definition candle_at (c : F) : Candle F :=
  {| c_timestamp := 0; c_open := c; c_high := c; c_low := c; c_close := c;
     c_volume := of_Z 0 |}.

(** A cooperative exchange: the ticker reads [p], the wallet holds [usdt]
    and [pi], the candles close at [closes], every order fills, the random
    generator draws [r], and the n-th interaction happens at second
    [t0 + n]. *)
Definition steady_world (p usdt pi : F) (closes : list F) (r : F) (t0 : Z)
  : World F :=
  fun n =>
    {| a_ticker := Some (ticker_at p);
       a_balance := Some {| usdt_free := usdt; pi_free := pi |};
       a_ohlcv := Some (map candle_at closes);
       a_order := true;
       a_random := r;
       a_choice := 0;
       a_now := (t0 + Z.of_nat n) * 1000000 |}.

(** The same exchange refusing every order. *)
Definition refusing_world (p usdt pi : F) (closes : list F) (r : F) (t0 : Z)
  : World F :=
  fun n =>
    {| a_ticker := Some (ticker_at p);
       a_balance := Some {| usdt_free := usdt; pi_free := pi |};
       a_ohlcv := Some (map candle_at closes);
       a_order := false;
       a_random := r;
       a_choice := 0;
       a_now := (t0 + Z.of_nat n) * 1000000 |}.

(** A long position entered at [entry], last trade at second [t]. *)
Definition long_at (entry : F) (t : Z) : Globals F :=
  set_last_trade_time (t * 1000000)
    (set_entry_price entry (set_in_position true initial_globals)).

(** Flat again, last trade at second [t]. *)
Definition flat_since (t : Z) : Globals F :=
  set_last_trade_time (t * 1000000) initial_globals.

(** The iteration that only waits: ticker read, clock read, sleep. *)
Definition waits_out_cooldown (n : nat) (g : Globals F) : Out F unit :=
  {| res := Ok tt; st := g; clk := S (S n);
     evs := [FetchTicker; Now; Sleep CHECK_INTERVAL] |}.

End Observations.

(** ** Scenarios *)

Section Scenarios.

Context {F : Type} {N : PyNum F}.

(** Sixteen closes that fall from 100 to 10 and recover to 120: the short
    average is above the long one, the volatility above its threshold and
    the RSI between 30 and 70, so the score is 5 without the random term. *)
Definition v_shaped_closes : list F :=
  map of_Z [100; 90; 80; 70; 60; 50; 40; 30; 20; 10; 20; 40; 60; 80; 100; 120].

(** Sixteen closes: a jump from 1 to 10^20, a halving, then flat. *)
Definition spike_closes : list F :=
  map of_Z (1 :: 100000000000000000000 :: repeat 50000000000000000000 14).

(** PI at 100 USDT, 1000 USDT and 8.5 PI in the wallet, every order
    filled, the random draw 0.5, the clock started at second [t0]. *)
Definition market_at_100 (t0 : Z) : World F :=
  steady_world (of_Z 100) (of_Z 1000) (lit 8.5%Q) v_shaped_closes
    (lit 0.5%Q) t0.

(** The same wallet with PI at 103, at 94.9 and at 98 USDT. *)
Definition market_at_103 (t0 : Z) : World F :=
  steady_world (of_Z 103) (of_Z 1000) (lit 8.5%Q) v_shaped_closes
    (lit 0.5%Q) t0.

Definition market_at_94_9 (t0 : Z) : World F :=
  steady_world (lit 94.9%Q) (of_Z 1000) (lit 8.5%Q) v_shaped_closes
    (lit 0.5%Q) t0.

Definition market_at_98 (t0 : Z) : World F :=
  steady_world (of_Z 98) (of_Z 1000) (lit 8.5%Q) v_shaped_closes
    (lit 0.5%Q) t0.

(** A wallet of 5 USDT and 0.05 PI: below the minimum on both sides. *)
Definition dust_market (t0 : Z) : World F :=
  steady_world (of_Z 100) (of_Z 5) (lit 0.05%Q) v_shaped_closes
    (lit 0.5%Q) t0.

(** PI at 100 USDT, the exchange refusing every order. *)
Definition refusing_market (t0 : Z) : World F :=
  refusing_world (of_Z 100) (of_Z 1000) (lit 8.5%Q) v_shaped_closes
    (lit 0.5%Q) t0.

End Scenarios.

(** * Properties *)

(** ** The two arithmetics satisfy the order laws *)

Lemma Qltb_lt (a b : Q) : negb (Qle_bool b a) = true <-> (a < b)%Q.
Proof.
  rewrite negb_true_iff, <- not_true_iff_false, Qle_bool_iff.
  split; [apply Qnot_le_lt | apply Qlt_not_le].
Qed.

#[export] Instance PyNumLaws_Q : PyNumLaws Q.
Proof.
  split; cbn.
  - intros a. apply negb_false_iff, Qle_bool_iff, Qle_refl.
  - intros a b c. rewrite !Qltb_lt. apply Qlt_trans.
  - intros a b c. rewrite !Qltb_lt, Qle_bool_iff. apply Qlt_le_trans.
  - intros a b c. rewrite !Qltb_lt, Qle_bool_iff. apply Qle_lt_trans.
  - intros a. rewrite !Qltb_lt. intros H.
    change (inject_Z 0) with 0%Q in *. lra.
  - reflexivity.
Qed.

Lemma SFcompare_Lt_trans (a b c : spec_float) :
  SFcompare a b = Some Lt -> SFcompare b c = Some Lt ->
  SFcompare a c = Some Lt.
Proof.
  destruct a as [sa|sa| |sa ma ea], b as [sb|sb| |sb mb eb],
      c as [sc|sc| |sc mc ec];
    simpl; try discriminate; try reflexivity;
    repeat match goal with s : bool |- _ => destruct s end;
    simpl; try discriminate; try reflexivity.
  all: destruct (Z.compare_spec ea eb), (Z.compare_spec eb ec),
         (Z.compare_spec ea ec);
    try discriminate; try reflexivity; try lia; subst.
  all: rewrite ?Pos.compare_cont_spec; simpl;
    destruct (Pos.compare_spec ma mb), (Pos.compare_spec mb mc),
      (Pos.compare_spec ma mc);
    simpl; try discriminate; try reflexivity; try lia.
Qed.

Lemma SFcompare_Lt_Eq (a b c : spec_float) :
  SFcompare a b = Some Lt -> SFcompare b c = Some Eq ->
  SFcompare a c = Some Lt.
Proof.
  destruct a as [sa|sa| |sa ma ea], b as [sb|sb| |sb mb eb],
      c as [sc|sc| |sc mc ec];
    simpl; try discriminate; try reflexivity;
    repeat match goal with s : bool |- _ => destruct s end;
    simpl; try discriminate; try reflexivity.
  all: destruct (Z.compare_spec ea eb), (Z.compare_spec eb ec),
         (Z.compare_spec ea ec);
    try discriminate; try reflexivity; try lia; subst.
  all: rewrite ?Pos.compare_cont_spec; simpl;
    destruct (Pos.compare_spec ma mb), (Pos.compare_spec mb mc),
      (Pos.compare_spec ma mc);
    simpl; try discriminate; try reflexivity; try lia.
Qed.

Lemma SFcompare_Eq_Lt (a b c : spec_float) :
  SFcompare a b = Some Eq -> SFcompare b c = Some Lt ->
  SFcompare a c = Some Lt.
Proof.
  destruct a as [sa|sa| |sa ma ea], b as [sb|sb| |sb mb eb],
      c as [sc|sc| |sc mc ec];
    simpl; try discriminate; try reflexivity;
    repeat match goal with s : bool |- _ => destruct s end;
    simpl; try discriminate; try reflexivity.
  all: destruct (Z.compare_spec ea eb), (Z.compare_spec eb ec),
         (Z.compare_spec ea ec);
    try discriminate; try reflexivity; try lia; subst.
  all: rewrite ?Pos.compare_cont_spec; simpl;
    destruct (Pos.compare_spec ma mb), (Pos.compare_spec mb mc),
      (Pos.compare_spec ma mc);
    simpl; try discriminate; try reflexivity; try lia.
Qed.

Lemma SFcompare_irrefl (a : spec_float) : SFcompare a a <> Some Lt.
Proof.
  destruct a as [s|s| |s m e]; simpl; try discriminate;
    destruct s; try discriminate;
    rewrite Z.compare_refl, Pos.compare_cont_spec, Pos.compare_refl;
    discriminate.
Qed.

#[export] Instance PyNumLaws_float : PyNumLaws float.
Proof.
  split; cbn.
  - intros a. rewrite ltb_spec. unfold SFltb.
    pose proof (SFcompare_irrefl (Prim2SF a)).
    destruct (SFcompare (Prim2SF a) (Prim2SF a)) as [[]|]; congruence.
  - intros a b c. rewrite !ltb_spec. unfold SFltb.
    destruct (SFcompare (Prim2SF a) (Prim2SF b)) as [[]|] eqn:E1;
      try discriminate.
    destruct (SFcompare (Prim2SF b) (Prim2SF c)) as [[]|] eqn:E2;
      try discriminate.
    now rewrite (SFcompare_Lt_trans _ _ _ E1 E2).
  - intros a b c. rewrite !ltb_spec, leb_spec. unfold SFltb, SFleb.
    destruct (SFcompare (Prim2SF a) (Prim2SF b)) as [[]|] eqn:E1;
      try discriminate.
    destruct (SFcompare (Prim2SF b) (Prim2SF c)) as [[]|] eqn:E2;
      try discriminate.
    + now rewrite (SFcompare_Lt_Eq _ _ _ E1 E2).
    + now rewrite (SFcompare_Lt_trans _ _ _ E1 E2).
  - intros a b c. rewrite !ltb_spec, leb_spec. unfold SFltb, SFleb.
    destruct (SFcompare (Prim2SF a) (Prim2SF b)) as [[]|] eqn:E1;
      try discriminate;
    destruct (SFcompare (Prim2SF b) (Prim2SF c)) as [[]|] eqn:E2;
      try discriminate.
    + now rewrite (SFcompare_Eq_Lt _ _ _ E1 E2).
    + now rewrite (SFcompare_Lt_trans _ _ _ E1 E2).
  - intros a. rewrite !ltb_spec, opp_spec.
    replace (Prim2SF (float_of_Z 0)) with (S754_zero false)
      by (vm_compute; reflexivity).
    unfold SFltb. destruct (Prim2SF a) as [s|s| |s m e]; simpl;
      try discriminate; destruct s; simpl; try discriminate; reflexivity.
  - vm_compute. reflexivity.
Qed.

(** ** Running the program symbolically *)

Ltac py_unfold :=
  unfold exec, trading_loop_iteration, buy_command, sell_command,
    status_command, start_command, set_params_command,
    check_exit_conditions, analyze_market, buy_pi, sell_pi,
    cooldown_running, get_market_data, get_available_balance, fetch_ticker,
    fetch_balance, fetch_ohlcv, create_market_buy_order,
    create_market_sell_order, py_float, send_telegram_message, reply_text,
    logger, asyncio_sleep, datetime_now, random_random, random_choice, bind,
    try_except, lift, ret, raise, emit, ask, get_globals, modify in *.

(** Case analysis on the innermost branching the program is stuck on. *)
Ltac py_case :=
  match goal with
  | |- context [match ?x with _ => _ end] =>
      lazymatch x with
      | context [match _ with _ => _ end] => fail
      | _ => destruct x eqn:?
      end
  end.

Ltac py_run := repeat (cbn in *; try py_case); cbn in *.

Section Position.

Context {F : Type} {N : PyNum F}.

Local Open Scope num_scope.



Lemma run_reachable (ops : list Op) (w : World F) (n : nat) (g : Globals F) :
  reachable w n g ->
  reachable w (clk (run ops w n g)) (st (run ops w n g)).
Proof.
  revert n g. induction ops as [|op ops IH]; intros n g R; [exact R|].
  cbn [run]. unfold bind, try_except, ret.
  pose proof (reachable_exec op R) as R'.
  destruct (exec op w n g) as [[[]|e] g1 n1 e1]; cbn in *;
    specialize (IH _ _ R');
    destruct (run ops w n1 g1) as [r2 g2 n2 e2]; exact IH.
Qed.


End Position.

(** ** The cooldown gate *)

Lemma timedelta_seconds_lt (d : Z) :
  timedelta_seconds d < TRADE_COOLDOWN <->
  d mod 86400000000 < TRADE_COOLDOWN * 1000000.
Proof.
  unfold timedelta_seconds, TRADE_COOLDOWN.
  pose proof (Z.mod_pos_bound d 86400000000 ltac:(lia)) as B.
  set (r := d mod 86400000000) in *.
  pose proof (Z.div_mod r 1000000 ltac:(lia)) as E.
  pose proof (Z.mod_pos_bound r 1000000 ltac:(lia)) as B'.
  lia.
Qed.

Lemma timedelta_seconds_elapsed (d : Z) :
  0 <= d -> TRADE_COOLDOWN <= timedelta_seconds d ->
  TRADE_COOLDOWN * 1000000 <= d.
Proof.
  intros Hd H.
  assert (~ timedelta_seconds d < TRADE_COOLDOWN) as H' by lia.
  rewrite timedelta_seconds_lt in H'.
  pose proof (Z.mod_le d 86400000000 Hd ltac:(lia)).
  lia.
Qed.

Section Cooldown.

Context {F : Type} {N : PyNum F}.

Local Open Scope num_scope.

(** C10. The gate of the loop reads the [seconds] component of the
    elapsed timedelta only: with a trade recorded [d] microseconds before
    the clock reading, a flat iteration that got its ticker does nothing
    but wait exactly when [d mod 86400 s < 300 s], and otherwise goes on
    to the entry path (its next step is the random draw); one day plus
    one minute after a trade the entry path is still skipped. *)
Theorem cooldown_reads_seconds_component
    (w : World F) (n : nat) (g : Globals F) (t1 : Z) (tk : Ticker F) :
  in_position g = false ->
  last_trade_time g = Some t1 ->
  a_ticker (w n) = Some tk ->
  let d := (a_now (w (S n)) - t1)%Z in
  (exec Iteration w n g = waits_out_cooldown n g <->
   (d mod 86400000000 < TRADE_COOLDOWN * 1000000)%Z) /\
  ((TRADE_COOLDOWN * 1000000 <= d mod 86400000000)%Z ->
   nth_error (evs (exec Iteration w n g)) 2 = Some RandomRandom) /\
  (d = ((86400 + 60) * 1000000)%Z ->
   exec Iteration w n g = waits_out_cooldown n g).
Proof.
  intros Hp Hl Ht d.
  assert (exec Iteration w n g = waits_out_cooldown n g <->
          (d mod 86400000000 < TRADE_COOLDOWN * 1000000)%Z) as Hiff.
  { rewrite <- timedelta_seconds_lt, <- Z.ltb_lt. fold d.
    unfold waits_out_cooldown.
    py_unfold. cbn. rewrite Ht. cbn. rewrite Hp, Hl. cbn. fold d.
    destruct (timedelta_seconds d <? TRADE_COOLDOWN)%Z eqn:E; cbn.
    - split; reflexivity.
    - split; [|discriminate]. py_run; discriminate. }
  split; [exact Hiff|]. split.
  - intros Hd.
    assert ((timedelta_seconds d <? TRADE_COOLDOWN)%Z = false) as E.
    { apply Z.ltb_ge. pose proof (timedelta_seconds_lt d). lia. }
    py_unfold. cbn. rewrite Ht. cbn. rewrite Hp, Hl. cbn. fold d.
    rewrite E. py_run; reflexivity.
  - intros Hd. apply Hiff. rewrite Hd. reflexivity.
Qed.

(** C2. Cooldown gate.  (1) With a clock that does not run backwards, an
    iteration of the loop that enters a position after a trade recorded
    at [t1] records the entry at a time [t2] with [t2 - t1 >= 300 s].
    (2) A manual buy enters whatever [last_trade_time] and the clock
    read, provided the ticker and the wallet are read, the order size is
    not below 10 and the order fills, and (3) it is still refused when
    the order size is below 10.  (4) A triggered profit or stop-loss exit
    and (5) a manual sell close the position whatever [last_trade_time]
    and the clock read. *)
Theorem cooldown_gate :
  (forall (w : World F) n (g : Globals F) t1,
      in_position g = false ->
      last_trade_time g = Some t1 ->
      clock_monotone_from w n t1 ->
      in_position (st (exec Iteration w n g)) = true ->
      exists t2,
        last_trade_time (st (exec Iteration w n g)) = Some t2 /\
        (TRADE_COOLDOWN * 1000000 <= t2 - t1)%Z) /\
  (forall (w : World F) n (g : Globals F) tk b,
      in_position g = false ->
      a_ticker (w n) = Some tk ->
      a_balance (w (S n)) = Some b ->
      (usdt_free b * BASE_ORDER_SIZE g <? of_Z 10) = false ->
      (tk_last tk =? of_Z 0) = false ->
      a_order (w (S (S n))) = true ->
      in_position (st (exec CmdBuy w n g)) = true /\
      entry_price (st (exec CmdBuy w n g)) = tk_last tk /\
      last_trade_time (st (exec CmdBuy w n g)) = Some (a_now (w (3 + n)%nat)) /\
      In (MarketBuy (usdt_free b * BASE_ORDER_SIZE g / tk_last tk) true)
         (evs (exec CmdBuy w n g))) /\
  (forall (w : World F) n (g : Globals F) tk b,
      in_position g = false ->
      a_ticker (w n) = Some tk ->
      a_balance (w (S n)) = Some b ->
      (usdt_free b * BASE_ORDER_SIZE g <? of_Z 10) = true ->
      st (exec CmdBuy w n g) = g /\
      count is_order (evs (exec CmdBuy w n g)) = 0%nat) /\
  (forall (w : World F) n (g : Globals F) tk b pp q,
      in_position g = true ->
      a_ticker (w n) = Some tk ->
      py_div (tk_last tk - entry_price g) (entry_price g) = Ok pp ->
      (PROFIT_THRESHOLD g <=? pp) || (pp <=? - STOP_LOSS g) = true ->
      a_balance (w (S n)) = Some b ->
      (pi_free b * tk_last tk <? of_Z 10) = false ->
      a_order (w (S (S n))) = true ->
      py_div (pi_free b * tk_last tk - pi_free b * entry_price g)
             (pi_free b * entry_price g) = Ok q ->
      in_position (st (exec Iteration w n g)) = false /\
      In (MarketSell (pi_free b) true) (evs (exec Iteration w n g))) /\
  (forall (w : World F) n (g : Globals F) tk b q,
      in_position g = true ->
      a_ticker (w n) = Some tk ->
      a_balance (w (S n)) = Some b ->
      (pi_free b * tk_last tk <? of_Z 10) = false ->
      a_order (w (S (S n))) = true ->
      py_div (pi_free b * tk_last tk - pi_free b * entry_price g)
             (pi_free b * entry_price g) = Ok q ->
      in_position (st (exec CmdSell w n g)) = false /\
      In (MarketSell (pi_free b) true) (evs (exec CmdSell w n g))).
Proof.
  repeat apply conj.
  - intros w n g t1 Hp Hl [Hge Hmono] Hin. revert Hin.
    py_unfold. cbn. destruct (a_ticker (w n)); cbn; [|now rewrite Hp].
    rewrite Hp, Hl. cbn.
    destruct (timedelta_seconds (a_now (w (S n)) - t1) <? TRADE_COOLDOWN)%Z
      eqn:E; cbn; [now rewrite Hp|].
    apply Z.ltb_ge in E.
    assert (TRADE_COOLDOWN * 1000000 <= a_now (w (S n)) - t1)%Z as Hel.
    { apply timedelta_seconds_elapsed; [|exact E].
      specialize (Hge (S n)). lia. }
    py_run; rewrite ?Hp; try discriminate; intros _;
      (eexists; split; [reflexivity|]);
      match goal with
      | |- (_ <= a_now (w ?k) - _)%Z =>
          specialize (Hmono (S n) k ltac:(lia) ltac:(lia)); lia
      end.
  - intros w n g tk b Hp Ht Hb Hsz Hz Ho.
    py_unfold. unfold py_div.
    repeat (progress (cbn; rewrite ?Hp, ?Ht, ?Hb, ?Hsz, ?Hz, ?Ho)).
    repeat split; auto 10.
  - intros w n g tk b Hp Ht Hb Hsz.
    unfold count. py_unfold.
    repeat (progress (cbn; rewrite ?Hp, ?Ht, ?Hb, ?Hsz)).
    split; reflexivity.
  - intros w n g tk b pp q Hp Ht Hpp Hex Hb Hsz Ho Hq.
    py_unfold.
    destruct (PROFIT_THRESHOLD g <=? pp) eqn:E1; cbn in Hex;
      repeat (progress
                (cbn; rewrite ?Hp, ?Ht, ?Hpp, ?E1, ?Hex, ?Hb, ?Hsz, ?Ho, ?Hq));
      split; auto 10.
  - intros w n g tk b q Hp Ht Hb Hsz Ho Hq.
    py_unfold.
    repeat (progress (cbn; rewrite ?Hp, ?Ht, ?Hb, ?Hsz, ?Ho, ?Hq)).
    split; auto 10.
Qed.

End Cooldown.

(** ** set_params *)

Section SetParams.

Context {F : Type} {N : PyNum F}.

Local Open Scope num_scope.

(** An argument that fails to parse after earlier ones were assigned: the
    assignments made before the failure stay. *)
Lemma set_params_partial (w : World F) (n : nat) (g : Globals F)
    (a0 a1 a2 : string) (v0 : F) :
  float_of_string a0 = Some v0 ->
  float_of_string a1 = None ->
  exec (CmdSetParams [a0; a1; a2]) w n g =
  {| res := Ok tt; st := set_BASE_ORDER_SIZE v0 g; clk := n;
     evs := [Reply (MsgParametersError ValueError)] |}.
Proof.
  intros H0 H1. py_unfold. cbn. rewrite H0. cbn. rewrite H1. reflexivity.
Qed.

(** C3 (as the code has it). Three arguments that all parse are assigned
    to the three parameters, whatever their sign, and acknowledged; a
    command with another number of arguments, or whose first argument does
    not parse, is answered by an error reply and leaves all three
    parameters, and the rest of the globals, unchanged. *)
Theorem set_params_command_behaviour
    (w : World F) (n : nat) (g : Globals F) (args : list string) :
  (forall a0 a1 a2 v0 v1 v2,
      args = [a0; a1; a2] ->
      float_of_string a0 = Some v0 ->
      float_of_string a1 = Some v1 ->
      float_of_string a2 = Some v2 ->
      exec (CmdSetParams args) w n g =
      {| res := Ok tt;
         st := set_STOP_LOSS v2
                 (set_PROFIT_THRESHOLD v1 (set_BASE_ORDER_SIZE v0 g));
         clk := n;
         evs := [Reply (MsgParametersUpdated (v0 * of_Z 100) (v1 * of_Z 100)
                          (v2 * of_Z 100))] |}) /\
  (List.length args <> 3%nat ->
   exec (CmdSetParams args) w n g =
   {| res := Ok tt; st := g; clk := n;
      evs := [Reply MsgIncorrectParameters] |}) /\
  (forall a0 a1 a2,
      args = [a0; a1; a2] ->
      float_of_string a0 = None ->
      exec (CmdSetParams args) w n g =
      {| res := Ok tt; st := g; clk := n;
         evs := [Reply (MsgParametersError ValueError)] |}).
Proof.
  repeat apply conj.
  - intros a0 a1 a2 v0 v1 v2 -> H0 H1 H2. py_unfold. cbn.
    rewrite H0. cbn. rewrite H1. cbn. rewrite H2. reflexivity.
  - intros Hlen. py_unfold.
    destruct args as [|a0 [|a1 [|a2 [|a3 rest]]]]; cbn in *;
      try reflexivity; congruence.
  - intros a0 a1 a2 -> H0. py_unfold. cbn. rewrite H0. reflexivity.
Qed.

End SetParams.

(** ** Failed orders and the minimum size *)

Section Orders.

Context {F : Type} {N : PyNum F}.

Local Open Scope num_scope.

Lemma buy_pi_failed_order (p : F) (w : World F) (n : nat) (g : Globals F) :
  existsb is_failed_order (evs (buy_pi p w n g)) = true ->
  res (buy_pi p w n g) = Ok false /\
  st (buy_pi p w n g) = g /\
  In (Telegram (MsgBuyFailed ExchangeError)) (evs (buy_pi p w n g)) /\
  count is_order (evs (buy_pi p w n g)) = 1%nat.
Proof.
  unfold count. py_unfold. py_run; intros; try discriminate;
    repeat split; auto 10.
Qed.

Lemma sell_pi_failed_order (p : F) (reason : string) (w : World F) (n : nat)
    (g : Globals F) :
  existsb is_failed_order (evs (sell_pi p reason w n g)) = true ->
  res (sell_pi p reason w n g) = Ok false /\
  st (sell_pi p reason w n g) = g /\
  In (Telegram (MsgSellFailed ExchangeError)) (evs (sell_pi p reason w n g)) /\
  count is_order (evs (sell_pi p reason w n g)) = 1%nat.
Proof.
  unfold count. py_unfold. py_run; intros; try discriminate;
    repeat split; auto 10.
Qed.

(** C4. Order-execution atomicity: when the order placed by [buy_pi] or
    [sell_pi] raises, the function returns [False] with the globals
    (position flag, entry price, last trade time, parameters) as they
    were, a failure notification is sent, and that order is the only one
    placed; the same holds for the whole operation (loop iteration or
    command) in which the order failed: globals unchanged, a failure
    notification, and exactly one order attempt, so no retry. *)
Theorem order_failure_is_atomic :
  (forall p (w : World F) n (g : Globals F),
      existsb is_failed_order (evs (buy_pi p w n g)) = true ->
      res (buy_pi p w n g) = Ok false /\
      st (buy_pi p w n g) = g /\
      In (Telegram (MsgBuyFailed ExchangeError)) (evs (buy_pi p w n g)) /\
      count is_order (evs (buy_pi p w n g)) = 1%nat) /\
  (forall p reason (w : World F) n (g : Globals F),
      existsb is_failed_order (evs (sell_pi p reason w n g)) = true ->
      res (sell_pi p reason w n g) = Ok false /\
      st (sell_pi p reason w n g) = g /\
      In (Telegram (MsgSellFailed ExchangeError))
         (evs (sell_pi p reason w n g)) /\
      count is_order (evs (sell_pi p reason w n g)) = 1%nat) /\
  (forall op (w : World F) n (g : Globals F),
      existsb is_failed_order (evs (exec op w n g)) = true ->
      st (exec op w n g) = g /\
      (In (Telegram (MsgBuyFailed ExchangeError)) (evs (exec op w n g)) \/
       In (Telegram (MsgSellFailed ExchangeError)) (evs (exec op w n g))) /\
      count is_order (evs (exec op w n g)) = 1%nat).
Proof.
  repeat apply conj.
  - exact buy_pi_failed_order.
  - exact sell_pi_failed_order.
  - intros op w n g. unfold count.
    destruct op; py_unfold; py_run; intros; try discriminate;
      repeat split; auto 20.
Qed.

(** C7. Minimum-size guard: a buy whose order size (balance times
    [BASE_ORDER_SIZE]; the balance counts as 0 when it cannot be read) is
    below 10 returns [False], places no order, leaves the globals as they
    were and reports the low balance; a sell whose position value (free PI
    times price) is below 10 returns [False], places no order, leaves the
    globals as they were and reports the position as too small. *)
Theorem minimum_size_guard :
  (forall p (w : World F) n (g : Globals F),
      let usdt_balance :=
        match a_balance (w n) with
        | Some b => usdt_free b
        | None => of_Z 0
        end in
      (usdt_balance * BASE_ORDER_SIZE g <? of_Z 10) = true ->
      res (buy_pi p w n g) = Ok false /\
      st (buy_pi p w n g) = g /\
      count is_order (evs (buy_pi p w n g)) = 0%nat /\
      In (Telegram MsgBalanceTooLow) (evs (buy_pi p w n g))) /\
  (forall p reason (w : World F) n (g : Globals F) b,
      a_balance (w n) = Some b ->
      (pi_free b * p <? of_Z 10) = true ->
      res (sell_pi p reason w n g) = Ok false /\
      st (sell_pi p reason w n g) = g /\
      count is_order (evs (sell_pi p reason w n g)) = 0%nat /\
      In (Telegram MsgTooSmallToSell) (evs (sell_pi p reason w n g))).
Proof.
  split.
  - intros p w n g usdt_balance H. subst usdt_balance. unfold count.
    py_unfold. destruct (a_balance (w n)); cbn in *; rewrite H; cbn;
      repeat split; auto 10.
  - intros p reason w n g b Hb H. unfold count. py_unfold. cbn.
    rewrite Hb. cbn. rewrite H. cbn. repeat split; auto 10.
Qed.

End Orders.

(** ** The exit rule *)

Section ExitRule.

Context {F : Type} {N : PyNum F} {L : PyNumLaws F}.

Local Open Scope num_scope.
Local Open Scope py_scope.



End ExitRule.

(** ** The risk score *)

Lemma fold_left_Zadd_perm (l l' : list Z) :
  Permutation l l' ->
  forall a, fold_left Z.add l a = fold_left Z.add l' a.
Proof.
  induction 1 as [|x l l' _ IH|x y l|l l' l'' _ IH1 _ IH2]; intros a; cbn.
  - reflexivity.
  - apply IH.
  - f_equal. lia.
  - now rewrite IH1.
Qed.

Section RiskScore.

Context {F : Type} {N : PyNum F} {L : PyNumLaws F}.

Local Open Scope num_scope.

(** The accumulation of the source adds up the five terms of the
    specification. *)
Lemma risk_score_is_sum_of_terms (i : Indicators F) (change : F) :
  risk_score_before_random i change
  = fold_left Z.add (spec_score_terms i change) 0%Z.
Proof.
  unfold risk_score_before_random, spec_score_terms. cbn.
  destruct (rsi i <? of_Z 30) eqn:E30, (of_Z 70 <? rsi i) eqn:E70.
  - exfalso.
    pose proof (nltb_trans _ _ _ E30 of_Z_30_70) as H1.
    pose proof (nltb_trans _ _ _ H1 E70) as H2.
    rewrite nltb_irrefl in H2. discriminate.
  - destruct (sma_long i <? sma_short i),
      (VOLATILITY_THRESHOLD <? volatility i), (change <? of_Z (-5));
      reflexivity.
  - destruct (sma_long i <? sma_short i),
      (VOLATILITY_THRESHOLD <? volatility i), (change <? of_Z (-5));
      reflexivity.
  - destruct (sma_long i <? sma_short i),
      (VOLATILITY_THRESHOLD <? volatility i), (change <? of_Z (-5));
      reflexivity.
Qed.

(** C8. Risk-score accumulation: summing the five deterministic terms in
    any order gives the score the source accumulates; an analysis that
    reads its ticker and candles and computes its indicators draws
    [random.random()] exactly once, adds 4 when the draw is below 0.2,
    logs that total, leaves the globals unchanged, and returns a buy
    signal that is true exactly when the total is at least 4. *)
Theorem risk_score_order_independent :
  (forall (i : Indicators F) (change : F) (terms : list Z),
      Permutation terms (spec_score_terms i change) ->
      fold_left Z.add terms 0%Z = risk_score_before_random i change) /\
  (forall (w : World F) n (g : Globals F) tk candles i,
      a_ticker (w n) = Some tk ->
      a_ohlcv (w (S n)) = Some candles ->
      indicators (map (@c_close F) candles) = Ok i ->
      let draw := a_random (w (S (S n))) in
      let score :=
        (risk_score_before_random i (tk_percentage tk)
         + (if (draw <? lit 0.2%Q)%num then 4 else 0))%Z in
      let o := analyze_market w n g in
      count is_random_random (evs o) = 1%nat /\
      In (Log (LogAnalysis score (rsi i) (volatility i))) (evs o) /\
      st o = g /\
      (exists buy_signal,
          res o = Ok (buy_signal, tk_last tk) /\
          (buy_signal = true <-> (4 <= score)%Z))).
Proof.
  split.
  - intros i change terms HP.
    rewrite risk_score_is_sum_of_terms. now apply fold_left_Zadd_perm.
  - intros w n g tk candles i Ht Hc Hi draw score o.
    subst o score draw. unfold count. py_unfold. cbn. rewrite Ht. cbn.
    rewrite Hc. cbn. rewrite Hi. cbn.
    destruct (a_random (w (S (S n))) <? lit 0.2%Q); cbn;
      rewrite ?Z.add_0_r;
      (repeat split; auto 10;
       eexists; split; [reflexivity|apply Z.leb_le]).
Qed.

End RiskScore.

(** ** RSI *)

(** The RSI of a computed set of indicators is [rsi_of] on the gains and
    losses of the window's returns (any arithmetic). *)
Lemma indicators_rsi {F : Type} {N : PyNum F} (closes : list F)
    (i : Indicators F) :
  indicators closes = Ok i ->
  exists rs, returns_of closes = Ok rs /\
             rsi_of (gains_of rs) (losses_of rs) = Ok (rsi i).
Proof.
  unfold indicators, rbind.
  destruct (returns_of closes) as [rs|]; [|discriminate].
  destruct (py_div _ _); [|discriminate].
  destruct (rsi_of _ _) as [r|] eqn:E; [|discriminate].
  intros H. injection H as <-. exists rs. split; [reflexivity|exact E].
Qed.

Lemma rsi_of_no_losses {F : Type} {N : PyNum F} (gains losses : F) :
  (losses =? of_Z 0)%num = true -> rsi_of gains losses = Ok (of_Z 100).
Proof. intros H. unfold rsi_of. now rewrite H. Qed.

Section ExactArithmetic.

Local Open Scope Q_scope.

Lemma Q_py_div (a b : Q) : ~ b == 0 -> py_div a b = Ok (a / b).
Proof.
  intros H. unfold py_div. cbn.
  destruct (Qeq_bool b (inject_Z 0)) eqn:E; [|reflexivity].
  apply Qeq_bool_eq in E. contradiction.
Qed.

Lemma Q_fold_sum_nonneg (l : list Q) :
  Forall (fun x => 0 <= x) l -> forall a, 0 <= a -> 0 <= fold_left Qplus l a.
Proof.
  induction 1 as [|x l Hx _ IH]; intros a Ha; cbn; [exact Ha|].
  cbn beta in Hx. apply IH. lra.
Qed.

Lemma Q_gains_nonneg (rs : list Q) : 0 <= gains_of rs.
Proof.
  unfold gains_of, py_sum. apply Q_fold_sum_nonneg; [|apply Qle_refl].
  apply Forall_forall. intros x Hx. apply filter_In in Hx.
  destruct Hx as [_ Hx]. cbn in Hx. apply Qltb_lt in Hx.
  change (inject_Z 0) with 0 in Hx. lra.
Qed.

Lemma Q_losses_nonneg (rs : list Q) : 0 <= losses_of rs.
Proof.
  unfold losses_of, py_sum. apply Q_fold_sum_nonneg; [|apply Qle_refl].
  apply Forall_forall. intros x Hx. apply in_map_iff in Hx.
  destruct Hx as [y [<- _]]. apply Qabs_nonneg.
Qed.

Lemma Q_rsi_of_bounds (gains losses : Q) :
  0 <= gains -> 0 <= losses ->
  exists r, rsi_of gains losses = Ok r /\
            0 <= r <= 100 /\ (r == 100 <-> losses == 0).
Proof.
  intros Hg Hl. unfold rsi_of. cbn.
  destruct (Qeq_bool losses (inject_Z 0)) eqn:E.
  - apply Qeq_bool_eq in E. exists (inject_Z 100). split; [reflexivity|].
    change (inject_Z 100) with 100. change (inject_Z 0) with 0 in E.
    split; [lra|]. split; intros _; [exact E|reflexivity].
  - apply Qeq_bool_neq in E. change (inject_Z 0) with 0 in E.
    assert (0 < losses) as Hpos.
    { destruct (Qlt_le_dec 0 losses) as [H|H]; [exact H|].
      exfalso. apply E. lra. }
    rewrite Q_py_div by exact E. cbn.
    assert (0 <= gains / losses) as Hrs.
    { apply Qle_shift_div_l; [exact Hpos|lra]. }
    change (inject_Z 1) with 1. change (inject_Z 100) with 100.
    rewrite Q_py_div by lra. cbn.
    set (x := 1 + gains / losses) in *.
    assert (1 <= x) as Hx by (subst x; lra).
    assert (0 < 100 / x) as Hd1 by (apply Qlt_shift_div_l; lra).
    assert (100 / x <= 100) as Hd2 by (apply Qle_shift_div_r; lra).
    exists (100 - 100 / x). split; [reflexivity|]. split; [lra|].
    split; intros H; exfalso; [lra|contradiction].
Qed.

Lemma Q_of_nat_nonzero (k : nat) : ~ inject_Z (Z.of_nat (S k)) == 0.
Proof. unfold Qeq. cbn. lia. Qed.

Lemma Q_returns_from_total (prev : Q) (rest : list Q) :
  ~ prev == 0 -> Forall (fun c => ~ c == 0) rest ->
  exists rs, returns_from prev rest = Ok rs /\
             List.length rs = List.length rest.
Proof.
  intros Hp Hr. revert prev Hp.
  induction Hr as [|c rest Hc _ IH]; intros prev Hp; cbn.
  - exists []. split; reflexivity.
  - rewrite Q_py_div by exact Hp. cbn.
    destruct (IH c Hc) as [rs [-> Hlen]]. cbn.
    eexists. split; [reflexivity|]. cbn. now rewrite Hlen.
Qed.

(** C9 (as it holds). Whatever the arithmetic, a window without losses has
    RSI 100.  In exact arithmetic, whenever the indicators of a window are
    computed its RSI lies in [0, 100] and equals 100 exactly when the sum
    of the absolute negative returns is zero; and they are computed for
    every window of at least two bars (hence of 16 or more) with non-zero
    closes. *)
Theorem rsi_bounds_exact :
  (forall (F : Type) (N : PyNum F) (gains losses : F),
      (losses =? of_Z 0)%num = true ->
      rsi_of gains losses = Ok (of_Z 100)) /\
  (forall (closes : list Q) (i : Indicators Q),
      indicators closes = Ok i ->
      exists rs,
        returns_of closes = Ok rs /\
        0 <= rsi i <= 100 /\
        (rsi i == 100 <-> losses_of rs == 0)) /\
  (forall closes : list Q,
      (2 <= List.length closes)%nat ->
      Forall (fun c => ~ c == 0) closes ->
      exists i, indicators closes = Ok i).
Proof.
  repeat apply conj.
  - intros F N. apply rsi_of_no_losses.
  - intros closes i Hi.
    destruct (indicators_rsi _ Hi) as [rs [Hrs Hrsi]].
    exists rs. split; [exact Hrs|].
    destruct (Q_rsi_of_bounds (Q_gains_nonneg rs) (Q_losses_nonneg rs))
      as [r [Hr Hb]].
    rewrite Hr in Hrsi. injection Hrsi as <-. exact Hb.
  - intros closes Hlen Hnz.
    destruct closes as [|c0 [|c1 rest]]; cbn in Hlen; try lia.
    inversion Hnz as [|? ? Hc0 Hrest]; subst.
    destruct (Q_returns_from_total Hc0 Hrest) as [rs [Hrs Hl]].
    unfold indicators. cbn [returns_of]. rewrite Hrs. cbn [rbind].
    destruct rs as [|r rs]; [discriminate Hl|].
    rewrite Q_py_div by apply Q_of_nat_nonzero. cbn [rbind].
    destruct (Q_rsi_of_bounds (Q_gains_nonneg (r :: rs))
                (Q_losses_nonneg (r :: rs))) as [x [-> _]].
    cbn [rbind]. eexists. reflexivity.
Qed.


End ExactArithmetic.

(** ** The entry price of an open position, and the handler around its
       suspension *)

Section Invariant.

Context {F : Type} {N : PyNum F}.

Local Open Scope num_scope.
Local Open Scope py_scope.

Lemma exec_entry_price (op : Op) (w : World F) (n : nat) (g : Globals F) :
  (in_position g = true -> (entry_price g =? of_Z 0) = false) ->
  in_position (st (exec op w n g)) = true ->
  (entry_price (st (exec op w n g)) =? of_Z 0) = false.
Proof.
  intros Hg. destruct op; py_unfold; unfold py_div; py_run;
    intros;
    solve [ discriminate | congruence | auto
          | specialize (Hg eq_refl); congruence ].
Qed.

(** While a position is open the recorded entry price is not zero, in
    every state reached from the initial one: the profit percentage of
    [check_exit_conditions] and of [status_command] is defined. *)
Theorem entry_price_set_while_long (w : World F) (n : nat) (g : Globals F) :
  reachable w n g ->
  in_position g = true ->
  (entry_price g =? of_Z 0) = false /\
  forall p, py_div (p - entry_price g) (entry_price g)
            = Ok ((p - entry_price g) / entry_price g).
Proof.
  intros R.
  assert (in_position g = true -> (entry_price g =? of_Z 0) = false) as H.
  { induction R as [n|n g op R IH]; [discriminate|].
    now apply exec_entry_price. }
  intros Hin. split; [auto|].
  intros p. unfold py_div. now rewrite (H Hin).
Qed.

(** The two halves of [buy_command] run back to back are the handler. *)
Lemma buy_command_split (w : World F) (n : nat) (g : Globals F) :
  buy_command w n g =
  (r <- buy_command_until_ack ;;
   match r with
   | None => ret tt
   | Some market_data => buy_command_after_ack market_data
   end) w n g.
Proof.
  unfold buy_command, buy_command_until_ack, buy_command_after_ack.
  unfold get_globals, reply_text, emit, ret, raise.
  unfold bind at 1. unfold bind at 4. unfold bind at 4.
  destruct (in_position g); [reflexivity|].
  unfold bind at 1. unfold bind at 3. unfold bind at 3.
  destruct (get_market_data w n g) as [[md|e] g1 n1 e1]; [|reflexivity].
  cbn. destruct md as [md|]; cbn; [|now rewrite <- app_assoc].
  unfold bind. destruct (buy_pi (price md) w n1 g1) as [[b|e] g2 n2 e2];
    cbn; now rewrite <- !app_assoc.
Qed.

End Invariant.

(** ** Concrete runs

    The theorems above applied to the scenarios, in binary64 where the
    theorem holds for every arithmetic and in exact arithmetic where it is
    stated there. *)

(** A flat iteration 1000 s after start-up, in binary64: the ticker, the
    draw for the analysis message, the analysis (score 5), the purchase
    of 8.5 PI for 850 USDT, the sleep. *)
Example iteration_enters :
  exec Iteration (market_at_100 1000 : World float) 0%nat initial_globals =
  {| res := Ok tt;
     st := {| in_position := true;
              entry_price := 100%float;
              last_trade_time := Some 1007000000;
              BASE_ORDER_SIZE := 0.85%float;
              PROFIT_THRESHOLD := 0.03%float;
              STOP_LOSS := 0.05%float |};
     clk := 9;
     evs := [FetchTicker; RandomRandom; FetchTicker; FetchOHLCV; RandomRandom;
             Log (LogAnalysis 5 62.992006090597634%float
                    0.34748677248677245%float);
             FetchBalance; MarketBuy 8.5%float true; Now; RandomChoice;
             Telegram (MsgBought 0 8.5%float 100%float 850%float 103%float
                         95%float);
             Log LogBuy; Sleep 60] |}.
Proof. vm_compute. reflexivity. Qed.

(** The next iteration with PI at 103: the profit target is hit and the
    8.5 PI are sold, reported with profit 25.5 and percentage 3. *)
Example iteration_exits :
  exec Iteration (market_at_103 2000 : World float) 0%nat
    (long_at (of_Z 100) 1007) =
  {| res := Ok tt;
     st := {| in_position := false;
              entry_price := 100%float;
              last_trade_time := Some 2003000000;
              BASE_ORDER_SIZE := 0.85%float;
              PROFIT_THRESHOLD := 0.03%float;
              STOP_LOSS := 0.05%float |};
     clk := 5;
     evs := [FetchTicker; Log (LogProfitTarget 0.03%float); FetchBalance;
             MarketSell 8.5%float true; Now; RandomChoice;
             Telegram (MsgSold JARVIS_SELL_MESSAGES 0 8.5%float 103%float
                         100%float 25.5%float 3%float true);
             Log LogSell; Sleep 60] |}.
Proof. vm_compute. reflexivity. Qed.


Lemma cooldown_reads_seconds_component_witness :
  let w : World float := market_at_100 86459 in
  let g : Globals float := flat_since 0 in
  in_position g = false /\
  last_trade_time g = Some 0%Z /\
  (a_now (w 1%nat) - 0 = (86400 + 60) * 1000000)%Z /\
  exec Iteration w 0%nat g = waits_out_cooldown 0 g.
Proof.
  intros w g.
  pose proof (@cooldown_reads_seconds_component float _ w 0%nat g 0%Z
                (ticker_at (of_Z 100)) eq_refl eq_refl eq_refl)
    as (_ & _ & H).
  split; [reflexivity|]. split; [reflexivity|]. split; [reflexivity|].
  apply H. reflexivity.
Defined.

Lemma clock_monotone_steady {F : Type} {N : PyNum F}
    (p usdt pi : F) (closes : list F) (r : F) (t0 t1 : Z) (n : nat) :
  (t1 <= (t0 + Z.of_nat n) * 1000000)%Z ->
  clock_monotone_from (steady_world p usdt pi closes r t0) n t1.
Proof.
  intros H. split; cbn; intros; lia.
Qed.

Lemma cooldown_gate_witness :
  (* an automated entry 1001 s after the last trade *)
  (let w : World float := market_at_100 1000 in
   let g : Globals float := flat_since 0 in
   clock_monotone_from w 0 0 /\
   in_position (st (exec Iteration w 0%nat g)) = true /\
   exists t2,
     last_trade_time (st (exec Iteration w 0%nat g)) = Some t2 /\
     (TRADE_COOLDOWN * 1000000 <= t2 - 0)%Z) /\
  (* a manual buy 10 s after the last trade *)
  (let w : World float := market_at_100 10 in
   let g : Globals float := flat_since 0 in
   in_position (st (exec CmdBuy w 0%nat g)) = true /\
   last_trade_time (st (exec CmdBuy w 0%nat g)) = Some 13000000%Z) /\
  (* a manual buy with 5 USDT *)
  (let w : World float := dust_market 10 in
   let g : Globals float := flat_since 0 in
   st (exec CmdBuy w 0%nat g) = g /\
   count is_order (evs (exec CmdBuy w 0%nat g)) = 0%nat) /\
  (* a profit exit and a manual sell 10 s after the entry *)
  (let w : World float := market_at_103 10 in
   let g : Globals float := long_at (of_Z 100) 0 in
   in_position (st (exec Iteration w 0%nat g)) = false /\
   in_position (st (exec CmdSell w 0%nat g)) = false).
Proof.
  pose proof (@cooldown_gate float _) as (H1 & H2 & H3 & H4 & H5).
  split; [|split; [|split]].
  - intros w g.
    assert (clock_monotone_from w 0 0) as Hc
        by (apply clock_monotone_steady; lia).
    assert (in_position (st (exec Iteration w 0%nat g)) = true) as Hin
        by (vm_compute; reflexivity).
    split; [exact Hc|]. split; [exact Hin|].
    exact (H1 w 0%nat g 0%Z eq_refl eq_refl Hc Hin).
  - intros w g.
    destruct (H2 w 0%nat g (ticker_at (of_Z 100))
                {| usdt_free := of_Z 1000; pi_free := lit 8.5%Q |}
                eq_refl eq_refl eq_refl eq_refl eq_refl eq_refl)
      as (Ha & _ & Hb & _).
    split; [exact Ha|exact Hb].
  - intros w g.
    exact (H3 w 0%nat g (ticker_at (of_Z 100))
              {| usdt_free := of_Z 5; pi_free := lit 0.05%Q |}
              eq_refl eq_refl eq_refl eq_refl).
  - intros w g. split.
    + refine (proj1 (H4 w 0%nat g (ticker_at (of_Z 103))
                {| usdt_free := of_Z 1000; pi_free := lit 8.5%Q |}
                _ _ eq_refl eq_refl eq_refl eq_refl eq_refl eq_refl
                eq_refl eq_refl)).
    + refine (proj1 (H5 w 0%nat g (ticker_at (of_Z 103))
                {| usdt_free := of_Z 1000; pi_free := lit 8.5%Q |}
                _ eq_refl eq_refl eq_refl eq_refl eq_refl eq_refl)).
Defined.

Lemma set_params_command_behaviour_witness :
  let w : World float := market_at_100 0 in
  let g : Globals float := initial_globals in
  (exists v0 v1 v2,
      float_of_string "0.5" = Some v0 /\
      float_of_string "0.04" = Some v1 /\
      float_of_string "0.06" = Some v2 /\
      st (exec (CmdSetParams ["0.5"; "0.04"; "0.06"]%string) w 0%nat g) =
      set_STOP_LOSS v2 (set_PROFIT_THRESHOLD v1 (set_BASE_ORDER_SIZE v0 g))) /\
  exec (CmdSetParams ["0.5"]%string) w 0%nat g =
  {| res := Ok tt; st := g; clk := 0;
     evs := [Reply MsgIncorrectParameters] |} /\
  exec (CmdSetParams ["abc"; "1"; "2"]%string) w 0%nat g =
  {| res := Ok tt; st := g; clk := 0;
     evs := [Reply (MsgParametersError ValueError)] |}.
Proof.
  intros w g.
  split; [|split].
  - pose proof (set_params_command_behaviour w 0%nat g
                  ["0.5"; "0.04"; "0.06"]%string) as (H & _ & _).
    do 3 eexists. split; [reflexivity|]. split; [reflexivity|].
    split; [reflexivity|].
    exact (f_equal (@st float unit)
             (H _ _ _ _ _ _ eq_refl eq_refl eq_refl eq_refl)).
  - pose proof (set_params_command_behaviour w 0%nat g ["0.5"]%string)
      as (_ & H & _).
    apply H. cbn. discriminate.
  - pose proof (set_params_command_behaviour w 0%nat g
                  ["abc"; "1"; "2"]%string) as (_ & _ & H).
    exact (H _ _ _ eq_refl eq_refl).
Defined.

Lemma order_failure_is_atomic_witness :
  let w : World float := refusing_market 0 in
  (let g : Globals float := initial_globals in
   existsb is_failed_order (evs (buy_pi (of_Z 100) w 0%nat g)) = true /\
   st (buy_pi (of_Z 100) w 0%nat g) = g /\
   count is_order (evs (buy_pi (of_Z 100) w 0%nat g)) = 1%nat) /\
  (let g : Globals float := long_at (of_Z 100) 0 in
   existsb is_failed_order
     (evs (sell_pi (of_Z 100) "manual" w 0%nat g)) = true /\
   st (sell_pi (of_Z 100) "manual" w 0%nat g) = g /\
   count is_order (evs (sell_pi (of_Z 100) "manual" w 0%nat g)) = 1%nat) /\
  (let g : Globals float := initial_globals in
   existsb is_failed_order (evs (exec Iteration w 0%nat g)) = true /\
   st (exec Iteration w 0%nat g) = g /\
   count is_order (evs (exec Iteration w 0%nat g)) = 1%nat).
Proof.
  intros w.
  pose proof (@order_failure_is_atomic float _) as (H1 & H2 & H3).
  split; [|split]; intros g.
  - assert (existsb is_failed_order (evs (buy_pi (of_Z 100) w 0%nat g))
            = true) as E by (vm_compute; reflexivity).
    destruct (H1 _ w 0%nat g E) as (_ & Hs & _ & Hc).
    split; [exact E|]. split; [exact Hs|exact Hc].
  - assert (existsb is_failed_order
              (evs (sell_pi (of_Z 100) "manual" w 0%nat g)) = true) as E
        by (vm_compute; reflexivity).
    destruct (H2 _ _ w 0%nat g E) as (_ & Hs & _ & Hc).
    split; [exact E|]. split; [exact Hs|exact Hc].
  - assert (existsb is_failed_order (evs (exec Iteration w 0%nat g)) = true)
      as E by (vm_compute; reflexivity).
    destruct (H3 Iteration w 0%nat g E) as (Hs & _ & Hc).
    split; [exact E|]. split; [exact Hs|exact Hc].
Defined.

Lemma minimum_size_guard_witness :
  let w : World float := dust_market 0 in
  (let g : Globals float := initial_globals in
   (of_Z 5 * BASE_ORDER_SIZE g <? of_Z 10)%num = true /\
   res (buy_pi (of_Z 100) w 0%nat g) = Ok false /\
   st (buy_pi (of_Z 100) w 0%nat g) = g /\
   count is_order (evs (buy_pi (of_Z 100) w 0%nat g)) = 0%nat) /\
  (let g : Globals float := long_at (of_Z 100) 0 in
   (lit 0.05%Q * of_Z 100 <? of_Z 10)%num = true /\
   res (sell_pi (of_Z 100) "profit" w 0%nat g) = Ok false /\
   st (sell_pi (of_Z 100) "profit" w 0%nat g) = g /\
   count is_order (evs (sell_pi (of_Z 100) "profit" w 0%nat g)) = 0%nat).
Proof.
  intros w.
  pose proof (@minimum_size_guard float _) as (H1 & H2).
  split; intros g.
  - destruct (H1 (of_Z 100) w 0%nat g eq_refl) as (Hr & Hs & Hc & _).
    split; [reflexivity|]. split; [exact Hr|]. split; [exact Hs|exact Hc].
  - assert ((lit 0.05%Q * of_Z 100 <? of_Z 10)%num = true) as E
        by (vm_compute; reflexivity).
    destruct (H2 (of_Z 100) "profit"%string w 0%nat g
                {| usdt_free := of_Z 5; pi_free := lit 0.05%Q |}
                eq_refl E) as (Hr & Hs & Hc & _).
    split; [exact E|]. split; [exact Hr|]. split; [exact Hs|exact Hc].
Defined.


Lemma risk_score_order_independent_witness :
  let w : World float := market_at_100 0 in
  (forall i change,
      fold_left Z.add (rev (spec_score_terms i change)) 0%Z
      = @risk_score_before_random float _ i change) /\
  (exists i,
      indicators (map (@c_close float) (map candle_at v_shaped_closes))
      = Ok i /\
      risk_score_before_random i (of_Z 0) = 5%Z /\
      count is_random_random (evs (analyze_market w 0%nat initial_globals))
      = 1%nat /\
      res (analyze_market w 0%nat initial_globals) = Ok (true, of_Z 100)).
Proof.
  intros w.
  pose proof (@risk_score_order_independent float _ _) as (H1 & H2).
  split.
  - intros i change. apply H1. apply Permutation_sym, Permutation_rev.
  - destruct (indicators (map (@c_close float) (map candle_at v_shaped_closes)))
      as [i|] eqn:Hi; [|vm_compute in Hi; discriminate].
    exists i. split; [reflexivity|].
    destruct (H2 w 0%nat initial_globals (ticker_at (of_Z 100)) _ i
                eq_refl eq_refl Hi) as (Hc & _ & _ & _).
    split; [|split; [exact Hc|]].
    + vm_compute in Hi. injection Hi as <-. vm_compute. reflexivity.
    + vm_compute. reflexivity.
Defined.

Section ExactRuns.

Local Open Scope Q_scope.

Lemma Q_v_shaped_nonzero :
  Forall (fun c : Q => ~ c == 0) (v_shaped_closes : list Q).
Proof.
  unfold v_shaped_closes. cbn.
  repeat (constructor; [unfold Qeq; cbn; lia|]). constructor.
Qed.

Lemma rsi_bounds_exact_witness :
  rsi_of (of_Z 7 : float) (of_Z 0) = Ok (of_Z 100) /\
  (exists i : Indicators Q,
      indicators (v_shaped_closes : list Q) = Ok i /\
      0 <= rsi i <= 100 /\ ~ rsi i == 100).
Proof.
  pose proof rsi_bounds_exact as (H1 & H2 & H3).
  split.
  - exact (H1 float _ (of_Z 7) (of_Z 0) eq_refl).
  - destruct (H3 (v_shaped_closes : list Q)) as [i Hi].
    + cbn. lia.
    + exact Q_v_shaped_nonzero.
    + exists i. split; [exact Hi|].
      destruct (H2 _ i Hi) as (rs & Hrs & Hb & Hiff).
      split; [exact Hb|].
      intros H100. apply Hiff in H100.
      vm_compute in Hrs. injection Hrs as <-.
      vm_compute in H100. discriminate.
Defined.


End ExactRuns.

Lemma entry_price_set_while_long_witness :
  let w : World float := market_at_100 1000 in
  let g := st (exec CmdBuy w 0%nat initial_globals) in
  let n := clk (exec CmdBuy w 0%nat initial_globals) in
  reachable w n g /\ in_position g = true /\
  (entry_price g =? of_Z 0)%num = false.
Proof.
  intros w g n.
  assert (reachable w n g) as R
      by exact (reachable_exec CmdBuy (reachable_initial w 0)).
  assert (in_position g = true) as Hin by (vm_compute; reflexivity).
  split; [exact R|]. split; [exact Hin|].
  exact (proj1 (entry_price_set_while_long R Hin)).
Defined.

(** ** Where the specification and the code part *)

(** C3, as the specification has it, fails: [/set_params -1 0.03 0.05] is
    acknowledged and makes the order size negative, where the
    specification rejects it and changes nothing; and
    [/set_params 0.5 abc 0.05] is answered by an error but has already
    replaced the order size. *)
Lemma set_params_counterexample :
  let w : World float := market_at_100 0 in
  let g : Globals float := initial_globals in
  let accepted := exec (CmdSetParams ["-1"; "0.03"; "0.05"]%string) w 0%nat g in
  let failed := exec (CmdSetParams ["0.5"; "abc"; "0.05"]%string) w 0%nat g in
  spec_set_params ["-1"; "0.03"; "0.05"]%string g = (g, false) /\
  evs accepted =
  [Reply (MsgParametersUpdated (of_Z (-1) * of_Z 100) (lit 0.03%Q * of_Z 100)
            (lit 0.05%Q * of_Z 100))%num] /\
  (BASE_ORDER_SIZE (st accepted) <? of_Z 0)%num = true /\
  st accepted <> g /\
  spec_set_params ["0.5"; "abc"; "0.05"]%string g = (g, false) /\
  evs failed = [Reply (MsgParametersError ValueError)] /\
  (BASE_ORDER_SIZE (st failed) =? BASE_ORDER_SIZE g)%num = false /\
  st failed <> g.
Proof.
  intros w g accepted failed.
  split; [reflexivity|]. split; [reflexivity|]. split; [reflexivity|].
  split.
  { intros H.
    apply (f_equal (fun s => (BASE_ORDER_SIZE s <? of_Z 0)%num)) in H.
    vm_compute in H. discriminate. }
  split; [reflexivity|]. split; [reflexivity|]. split; [reflexivity|].
  intros H.
  apply (f_equal (fun s => (BASE_ORDER_SIZE s =? lit 0.85%Q)%num)) in H.
  vm_compute in H. discriminate.
Qed.


(** C9, as the specification has it, fails in binary64: on sixteen bars
    that jump from 1 to 10^20 and then halve, the returns are defined,
    the sum of losses is 0.5, and the RSI is computed as exactly 100. *)
Lemma rsi_counterexample :
  List.length (spike_closes : list float) = 16%nat /\
  exists rs i,
    returns_of (spike_closes : list float) = Ok rs /\
    indicators (spike_closes : list float) = Ok i /\
    (losses_of rs =? of_Z 0)%num = false /\
    (rsi i =? of_Z 100)%num = true.
Proof.
  split; [reflexivity|].
  destruct (returns_of (spike_closes : list float)) as [rs|] eqn:Hrs;
    [|vm_compute in Hrs; discriminate].
  destruct (indicators (spike_closes : list float)) as [i|] eqn:Hi;
    [|vm_compute in Hi; discriminate].
  exists rs, i. split; [reflexivity|]. split; [reflexivity|].
  vm_compute in Hrs. injection Hrs as <-.
  vm_compute in Hi. injection Hi as <-.
  split; vm_compute; reflexivity.
Qed.

(** ** An interleaving at the suspension of [buy_command] *)

(** A manual buy that is suspended at its acknowledgement while flat, and
    resumed after a loop iteration has entered a position, places a second
    buy order: the position check is not repeated after the suspension.
    (In binary64, PI at 100 USDT, 1000 USDT in the wallet.) *)
Lemma manual_buy_resumed_after_entry :
  let w : World float := market_at_100 1000 in
  let o1 := buy_command_until_ack w 0%nat initial_globals in
  let o2 := exec Iteration w (clk o1) (st o1) in
  let o3 := buy_command_after_ack (Some (Build_MarketData (of_Z 100) (of_Z 0)
                                     (of_Z 0) (of_Z 100) (of_Z 100)))
              w (clk o2) (st o2) in
  res o1 = Ok (Some (Some (Build_MarketData (of_Z 100) (of_Z 0) (of_Z 0)
                             (of_Z 100) (of_Z 100)))) /\
  in_position (st o1) = false /\
  in_position (st o2) = true /\
  filter is_buy_order (evs o2) = [MarketBuy 8.5%float true] /\
  filter is_buy_order (evs o3) = [MarketBuy 8.5%float true].
Proof.
  intros w o1 o2 o3. repeat apply conj; vm_compute; reflexivity.
Qed.
